(** * InnoSynth: the corpus analysis pipeline of [LiteratureAnalyzer]

    A shallow embedding of [src/main.py]: the paper store, the text
    aggregation and theme extraction of [extract_common_themes], the
    reference statistics of [analyze_references] and the per-paper summaries
    of [generate_review] and [analyze].

    A Python [str] value is modelled by its UTF-8 encoding, a [string] of
    bytes; its characters are counted and sliced by [char_length] and
    [take_chars].  Python [int] values that count things are [nat].  A
    Python [set] of strings is a [gset string]. *)

From Stdlib Require Import QArith Ascii String.
From stdpp Require Import gmap strings list sorting pretty.

Open Scope string_scope.

(** ** Data model *)

(** The values a text field of a paper dictionary can hold:
    [extract_text_from_xml] stores [title.text], which is [None] for an
    element without text, or a string. *)
Inductive pyval :=
  | PyNone
  | PyStr (s : string).

(** A paper is a dictionary with the keys ['title'], ['abstract'], ['body']
    and ['references'].  A field is [None] when the key is not in the
    dictionary. *)
Record Paper := mkPaper {
  title : option pyval;
  abstract : option pyval;
  body : option pyval;
  references : option (list string)
}.

(** An entry of [self.papers_data]; [None] is Python's [None]. *)
Definition entry := option Paper.

(** [d.get(key, default)] *)
Definition dict_get (field : option pyval) (dflt : pyval) : pyval :=
  match field with
  | Some v => v
  | None => dflt
  end.

(** Truth value of a text value: [None] and [''] are false. *)
Definition truthy (v : pyval) : bool :=
  match v with
  | PyNone => false
  | PyStr s => negb (String.eqb s "")
  end.

(** Truth value of an entry: [None] and the empty dictionary are false. *)
Definition paper_truthy (e : entry) : bool :=
  match e with
  | None => false
  | Some p =>
      match title p, abstract p, body p, references p with
      | None, None, None, None => false
      | _, _, _, _ => true
      end
  end.

(** How an f-string renders a text value. *)
Definition format (v : pyval) : string :=
  match v with
  | PyNone => "None"
  | PyStr s => s
  end.

(** ** Characters

    In the UTF-8 encoding a character is a lead byte followed by its
    continuation bytes, the bytes of the form 10xxxxxx. *)
Definition is_continuation (c : ascii) : bool :=
  match c with
  | Ascii _ _ _ _ _ _ b6 b7 => b7 && negb b6
  end.

(** [len(s)]: the number of characters, one for each lead byte. *)
Fixpoint char_length (s : string) : nat :=
  match s with
  | EmptyString => 0
  | String c s' =>
      if is_continuation c then char_length s' else S (char_length s')
  end.

(** [s[:n]]: the bytes of the first [n] characters. *)
Fixpoint take_chars (n : nat) (s : string) : string :=
  match s with
  | EmptyString => EmptyString
  | String c s' =>
      if is_continuation c then String c (take_chars n s')
      else match n with
           | O => EmptyString
           | S n' => String c (take_chars n' s')
           end
  end.

(** [s[n:]]: the bytes after the first [n] characters. *)
Fixpoint drop_chars (n : nat) (s : string) : string :=
  match s with
  | EmptyString => EmptyString
  | String c s' =>
      if is_continuation c then drop_chars n s'
      else match n with
           | O => s
           | S n' => drop_chars n' s'
           end
  end.

(** A string that is empty or begins with the lead byte of a character. *)
Definition on_boundary (s : string) : Prop :=
  match s with
  | EmptyString => True
  | String c _ => is_continuation c = false
  end.

(** ** Reference analysis *)

Module References.

(** The two entries of [reference_stats] the loop updates. *)
Record acc := mkAcc {
  total : nat;
  common : gset string
}.

Definition init : acc := mkAcc 0 ∅.

(** One iteration of [for paper in self.papers_data]. *)
Definition step (a : acc) (e : entry) : acc :=
  match e with
  | Some p =>
      match paper_truthy e, references p with
      | true, Some refs =>
          mkAcc (total a + length refs)
                (if decide (size (common a) = 0)
                 then common a ∪ list_to_set refs
                 else common a ∩ list_to_set refs)
      | _, _ => a
      end
  | None => a
  end.

(** The number of references an entry adds to the total. *)
Definition ref_count (e : entry) : nat :=
  match e with
  | Some p => match references p with Some refs => length refs | None => 0 end
  | None => 0
  end.

Definition loop (papers_data : list entry) : acc :=
  foldl step init papers_data.

(** The dictionary [analyze_references] returns.  [common_references] is
    [list(...)] of the set, which enumerates it in no specified order; it is
    kept as the set.  The average is the quotient of two integers; it is
    kept as the exact rational, of which the Python float is the rounding. *)
Record stats := mkStats {
  total_references : nat;
  common_references : gset string;
  reference_years : list string;
  avg_references_per_paper : Q
}.

Definition average (tot n : nat) : Q :=
  match n with
  | O => 0%Q
  | S _ => Qmake (Z.of_nat tot) (Pos.of_nat n)
  end.

Definition analyze_references (papers_data : list entry) : stats :=
  let a := loop papers_data in
  mkStats (total a) (common a) [] (average (total a) (length papers_data)).

End References.

(** ** Text aggregation and theme extraction *)

Module Themes.

(** [f"{paper.get('title', '')} {paper.get('abstract', '')} {paper.get('body', '')}"] *)
Definition aggregate (p : Paper) : string :=
  format (dict_get (title p) (PyStr "")) ++ " " ++
  format (dict_get (abstract p) (PyStr "")) ++ " " ++
  format (dict_get (body p) (PyStr "")).

(** The list [texts]: one text per entry that is true. *)
Definition texts (papers_data : list entry) : list string :=
  omap (fun e => if paper_truthy e then aggregate <$> e else None) papers_data.

(** The keyword arguments of [TfidfVectorizer] and of [NMF]. *)
Record TfidfParams := mkTfidf {
  max_features : nat;
  stop_words : string;
  ngram_range : nat * nat;
  max_df : Q;
  min_df : nat
}.

Record NMFParams := mkNMF {
  n_components : nat;
  random_state : option Z;
  max_iter : nat
}.

Definition tfidf_params : TfidfParams := mkTfidf 1000 "english" (1, 2) (95 # 100) 2.
Definition nmf_params : NMFParams := mkNMF 5 (Some 42%Z) 400.

Record Theme := mkTheme {
  theme : string;
  keywords : list string
}.

(** [a[:-10:-1]]: from the last element backwards, stopping before the
    tenth from the end. *)
Definition last9_reversed {A} (a : list A) : list A := take 9 (reverse a).

(** The order of two column indices by their weight in a row of the
    theme-by-term matrix. *)
Definition index_le {W} (Wle : relation W) (row : list W) (i j : nat) : Prop :=
  exists x y, row !! i = Some x /\ row !! j = Some y /\ Wle x y.

Section Extractor.
(** scikit-learn and numpy are not part of the repository: they are taken
    as parameters.  [W] is the type of the matrix entries (floats, of which
    only the order is used), [Rng] the state of numpy's global random
    generator.  A result [None] stands for a raised exception. *)
Context {W Rng : Type}.
Variable fit_transform :
  TfidfParams -> list string -> option (list string * list (list W)).
Variable nmf_fit : NMFParams -> Rng -> list (list W) -> option (list (list W)).
Variable argsort : list W -> list nat.

(** [[feature_names[i] for i in topic.argsort()[:-10:-1]]] *)
Definition top_words (feature_names : list string) (topic : list W)
  : option (list string) :=
  mapM (fun i => feature_names !! i) (last9_reversed (argsort topic)).

Definition label (topic_idx : nat) : string :=
  "主题 " ++ pretty (topic_idx + 1).

Definition make_theme (feature_names : list string)
    (it : nat * list W) : option Theme :=
  kw ← top_words feature_names it.2;
  Some (mkTheme (label it.1) kw).

(** The body of the [try] statement. *)
Definition try_block (g : Rng) (txts : list string) : option (list Theme) :=
  fitted ← fit_transform tfidf_params txts;
  components ← nmf_fit nmf_params g fitted.2;
  mapM (make_theme fitted.1) (imap pair components).

(** The four ways [extract_common_themes] ends: the two early returns,
    the [except] branch and the [return themes] of the [try] block. *)
Inductive outcome :=
  | NoPapers
  | NoTexts
  | Raised
  | Extracted (themes : list Theme).

Definition extract_outcome (g : Rng) (papers_data : list entry) : outcome :=
  match papers_data with
  | [] => NoPapers
  | _ =>
      match texts papers_data with
      | [] => NoTexts
      | txts =>
          match try_block g txts with
          | Some themes => Extracted themes
          | None => Raised
          end
      end
  end.

Definition extract_common_themes (g : Rng) (papers_data : list entry)
  : list Theme :=
  match extract_outcome g papers_data with
  | Extracted themes => themes
  | NoPapers | NoTexts | Raised => []
  end.
End Extractor.

End Themes.

(** ** Report synthesis *)

Module Report.

Record Summary := mkSummary {
  s_title : pyval;
  s_abstract : string
}.

(** [paper.get('abstract', 'No abstract available')[:500] + '...'
     if paper.get('abstract') else 'No abstract available'].
    In the first branch the value is true, hence a string. *)
Definition summary_abstract (p : Paper) : string :=
  if truthy (dict_get (abstract p) PyNone)
  then match dict_get (abstract p) (PyStr "No abstract available") with
       | PyStr s => take_chars 500 s ++ "..."
       | PyNone => "..."
       end
  else "No abstract available".

Definition paper_summary (p : Paper) : Summary :=
  mkSummary (dict_get (title p) (PyStr "Unknown Title")) (summary_abstract p).

(** [[... for paper in self.papers_data if paper]] *)
Definition summaries (papers_data : list entry) : list Summary :=
  omap (fun e => if paper_truthy e then paper_summary <$> e else None)
       papers_data.

(** The dictionary [generate_review] writes to [literature_review.json]. *)
Record Review {T : Type} := mkReview {
  total_papers : nat;
  common_themes : T;
  reference_analysis : References.stats;
  papers_summary : list Summary;
  timestamp : string
}.
Arguments Review : clear implicits.

(** The dictionary [analyze] writes and returns. *)
Record BasicReview := mkBasicReview {
  b_total_papers : nat;
  b_papers_summary : list Summary;
  b_timestamp : string
}.

Section Synthesis.
Context {W Rng : Type}.
Variable fit_transform :
  Themes.TfidfParams -> list string -> option (list string * list (list W)).
Variable nmf_fit :
  Themes.NMFParams -> Rng -> list (list W) -> option (list (list W)).
Variable argsort : list W -> list nat.

(** [now] is the formatted time read from the clock. *)
Definition generate_review (g : Rng) (now : string)
    (papers_data : list entry) : Review (list Themes.Theme) :=
  let themes :=
    Themes.extract_common_themes fit_transform nmf_fit argsort g papers_data in
  let reference_analysis := References.analyze_references papers_data in
  mkReview _ (length papers_data) themes reference_analysis
           (summaries papers_data) now.
End Synthesis.

Definition analyze (now : string) (papers_data : list entry) : BasicReview :=
  mkBasicReview (length papers_data) (summaries papers_data) now.

End Report.

(** ** Ingestion: the GROBID client and [process_papers] *)

Module Grobid.

Section Client.
(** [xml.etree.ElementTree], [re] and [requests] are not part of the
    repository: they are taken as parameters.  [Elem] is the type of XML
    elements, [World] the state of the file system and of the GROBID server.
    A result [None] of [fromstring], [get] or [post] stands for a raised
    exception; [text e] is [None] for an element without text. *)
Context {Elem World : Type}.
Variable fromstring : string -> option Elem.
Variable find : string -> Elem -> option Elem.
Variable findall : string -> Elem -> list Elem.
Variable text : Elem -> option string.
Variable itertext : Elem -> list string.
(** The [re.sub] call that removes the first default namespace
    declaration from the XML text. *)
Variable strip_namespace : string -> string.
(** [requests.get(url)] and [requests.post(url, files=...)] on the opened
    file, with the status code (and the response text) they return. *)
Variable get : World -> string -> World * option nat.
Variable post : World -> string -> string -> World * option (nat * string).

(** [check_server] *)
Definition check_server (w : World) (base_url : string) : World * bool :=
  let (w', response) := get w (base_url ++ "/api/isalive") in
  (w', match response with
       | Some status_code => Nat.eqb status_code 200
       | None => false
       end).

(** [title.text if title is not None else ''] *)
Definition title_text (title : option Elem) : pyval :=
  match title with
  | Some t => match text t with Some s => PyStr s | None => PyNone end
  | None => PyStr ""
  end.

(** [''.join(e.itertext()) if e is not None else ''] *)
Definition joined_text (e : option Elem) : string :=
  match e with
  | Some x => String.concat "" (itertext x)
  | None => ""
  end.

(** The loop over [refs]: the text of the first title of a reference is
    appended when there is a title and its text is true. *)
Definition reference_titles (refs : list Elem) : list string :=
  omap (fun ref =>
          match find ".//title" ref with
          | Some ref_title =>
              match text ref_title with
              | Some s => if String.eqb s "" then None else Some s
              | None => None
              end
          | None => None
          end) refs.

(** [extract_text_from_xml]; [None] is the [return None] of the [except]
    branch. *)
Definition extract_text_from_xml (xml_string : string) : option Paper :=
  match fromstring (strip_namespace xml_string) with
  | Some root =>
      Some (mkPaper
              (Some (title_text (find ".//titleStmt/title" root)))
              (Some (PyStr (joined_text (find ".//abstract" root))))
              (Some (PyStr (joined_text (find ".//body" root))))
              (Some (reference_titles (findall ".//listBibl/biblStruct" root))))
  | None => None
  end.

(** [process_pdf] *)
Definition process_pdf (w : World) (base_url pdf_path : string)
  : World * option Paper :=
  let (w', response) :=
    post w (base_url ++ "/api/processFulltextDocument") pdf_path in
  (w', match response with
       | Some (status_code, response_text) =>
           if Nat.eqb status_code 200
           then match extract_text_from_xml response_text with
                | Some extracted_data =>
                    if paper_truthy (Some extracted_data)
                    then Some extracted_data
                    else None
                | None => None
                end
           else None
       | None => None
       end).

(** One iteration of [for pdf_file in pdf_files] in [process_papers]. *)
Definition process_step (base_url : string) (st : World * list entry)
    (pdf_file : string) : World * list entry :=
  let (w', paper_data) := process_pdf st.1 base_url pdf_file in
  (w', if paper_truthy paper_data then (st.2 ++ [paper_data])%list else st.2).

(** [process_papers], on the list [pdf_files] of the files the directory
    holds; it returns the new [self.papers_data]. *)
Definition process_papers (w : World) (base_url : string)
    (papers_data : list entry) (pdf_files : list string)
  : World * list entry :=
  let (w', alive) := check_server w base_url in
  if alive
  then foldl (process_step base_url) (w', papers_data) pdf_files
  else (w', papers_data).
End Client.

End Grobid.

(** ** Markdown lists *)

Module Markdown.

Definition newline : string := String (ascii_of_nat 10) "".

(** [_format_list]: the items, each after a dash and a space, joined by
    newlines. *)
Definition _format_list (items : list string) : string :=
  String.concat newline ((fun item => "- " ++ item) <$> items).

(** Whether a string holds a newline character. *)
Fixpoint has_newline (s : string) : bool :=
  match s with
  | EmptyString => false
  | String c s' => Ascii.eqb c (ascii_of_nat 10) || has_newline s'
  end.

(** What follows an item in a formatted list: nothing, or a newline. *)
Definition item_end (r : string) : Prop :=
  match r with
  | EmptyString => True
  | String c _ => c = ascii_of_nat 10
  end.

End Markdown.

(** ** The reference lists of a corpus *)

Module ReferenceLists.

(** Whether an entry is a dictionary with the key ['references']. *)
Definition has_references (e : entry) : bool :=
  match e with
  | Some p => match references p with Some _ => true | None => false end
  | None => false
  end.

(** The reference lists the loop of [analyze_references] reads, in order. *)
Definition reference_lists (papers_data : list entry) : list (list string) :=
  omap (fun e => match e with Some p => references p | None => None end)
       papers_data.

End ReferenceLists.

(** ** Papers as the extraction builds them *)

Module PaperShape.

(** A paper with all four keys, whose abstract and body are strings and
    whose references are not empty strings. *)
Definition complete (p : Paper) : Prop :=
  is_Some (title p) /\
  (exists a, abstract p = Some (PyStr a)) /\
  (exists b, body p = Some (PyStr b)) /\
  exists refs, references p = Some refs /\ Forall (fun r => r <> "") refs.

Definition complete_entry (e : entry) : Prop :=
  exists p, e = Some p /\ complete p.

End PaperShape.

(** ** Sample inputs *)

Module Sample.

Definition paper_with (t : string) (refs : list string) : Paper :=
  mkPaper (Some (PyStr t)) (Some (PyStr "")) (Some (PyStr "")) (Some refs).

Definition paper_none : Paper := paper_with "N" [].
Definition paper_x : Paper := paper_with "A" ["X"].
Definition paper_y : Paper := paper_with "B" ["Y"].
Definition paper_z : Paper := paper_with "C" ["Z"].

Fixpoint repeat_char (c : ascii) (n : nat) : string :=
  match n with
  | O => ""
  | S n' => String c (repeat_char c n')
  end.

Definition paper_abstract (a : string) : Paper :=
  mkPaper (Some (PyStr "T")) (Some (PyStr a)) (Some (PyStr "")) (Some []).

(** Three papers of which two share the one term alpha. *)
Definition alpha_corpus : list entry :=
  [ Some (mkPaper (Some (PyStr "alpha")) (Some (PyStr "beta")) (Some (PyStr "")) (Some []));
    Some (mkPaper (Some (PyStr "alpha")) (Some (PyStr "gamma")) (Some (PyStr "")) (Some []));
    Some (mkPaper (Some (PyStr "delta")) (Some (PyStr "")) (Some (PyStr "")) (Some [])) ].

(** An instance of the library functions, with natural numbers as weights:
    a vectorizer whose vocabulary is the one term alpha, a factorization
    that fills [n_components] rows with the seed, or with the state of the
    global generator when there is no seed, and an ascending sort of the
    column indices by weight. *)
Definition fit_transform (prm : Themes.TfidfParams) (txts : list string)
  : option (list string * list (list nat)) :=
  Some (["alpha"], (fun _ => [1]) <$> txts).

Definition nmf_fit (prm : Themes.NMFParams) (g : nat) (X : list (list nat))
  : option (list (list nat)) :=
  let w := match Themes.random_state prm with
           | Some s => Z.to_nat s
           | None => g
           end in
  Some (replicate (Themes.n_components prm) ((fun _ => w) <$> default [] (head X))).

Definition weight (row : list nat) (i : nat) : nat := default 0 (row !! i).

Definition weight_le (row : list nat) : relation nat :=
  fun i j => weight row i <= weight row j.

Definition argsort (row : list nat) : list nat :=
  @merge_sort nat (weight_le row)
    (fun i j => decide (weight row i <= weight row j)) (seq 0 (length row)).

Definition alpha_themes : list Themes.Theme :=
  (fun k => Themes.mkTheme (Themes.label k) ["alpha"]) <$> seq 0 5.

End Sample.

(** ** A sample extraction service *)

Module SampleService.

(** A parsed element: the path that finds it from its parent, its text and
    the elements found under it. *)
#[warnings="-register-all"] Inductive elem :=
  | Elem (path : string) (txt : option string) (found : list elem).

Definition path (e : elem) : string :=
  match e with Elem p _ _ => p end.

Definition text (e : elem) : option string :=
  match e with Elem _ txt _ => txt end.

Definition found (e : elem) : list elem :=
  match e with Elem _ _ f => f end.

Definition findall (p : string) (e : elem) : list elem :=
  omap (fun c => if String.eqb (path c) p then Some c else None) (found e).

Definition find (p : string) (e : elem) : option elem :=
  head (findall p e).

Definition itertext (e : elem) : list string :=
  match text e with Some s => [s] | None => [] end.

(** A document with a title element without text, an abstract, a body and
    three references: one with a title, one whose title has an empty text
    and one without title. *)
Definition document : elem :=
  Elem "" None
    [ Elem ".//titleStmt/title" None [];
      Elem ".//abstract" (Some "An abstract") [];
      Elem ".//body" (Some "A body") [];
      Elem ".//listBibl/biblStruct" None [Elem ".//title" (Some "Ref one") []];
      Elem ".//listBibl/biblStruct" None [Elem ".//title" (Some "") []];
      Elem ".//listBibl/biblStruct" None [] ].

(** The parser fails on the empty text and returns [document] otherwise. *)
Definition fromstring (s : string) : option elem :=
  if String.eqb s "" then None else Some document.

Definition strip_namespace (s : string) : string := s.

(** The state of the service is the number of requests it has received. *)
Definition get (w : nat) (url : string) : nat * option nat :=
  (S w, Some 200).

Definition post (w : nat) (url pdf_path : string)
  : nat * option (nat * string) :=
  (S w, if String.eqb pdf_path "broken.pdf" then Some (500, "")
        else if String.eqb pdf_path "missing.pdf" then None
        else Some (200, "<TEI/>")).

Definition pdf_files : list string := ["a.pdf"; "broken.pdf"; "missing.pdf"; "b.pdf"].

End SampleService.

(** ** Sample texts *)

Module SampleText.

Fixpoint repeat_string (s : string) (n : nat) : string :=
  match n with
  | O => ""
  | S n' => s ++ repeat_string s n'
  end.

(** A paper with a title, the given abstract, an empty body and no
    reference. *)
Definition paper_of_abstract (a : string) : Paper :=
  mkPaper (Some (PyStr "T")) (Some (PyStr a)) (Some (PyStr "")) (Some []).

(** Abstracts of 501 and of 200 characters of three bytes each. *)
Definition long_abstract : string := repeat_string "题" 501.
Definition short_abstract : string := repeat_string "题" 200.

(** The paper [extract_text_from_xml] returns for a document whose title
    element has no text. *)
Definition untitled_paper : Paper :=
  mkPaper (Some PyNone) (Some (PyStr "An abstract")) (Some (PyStr "A body"))
          (Some ["Ref one"]).

End SampleText.

(** * Properties *)

(** ** Reference analysis *)

Module ReferenceFacts.
Import References Sample.

Lemma paper_truthy_references p refs :
  references p = Some refs -> paper_truthy (Some p) = true.
Proof.
  intros H. unfold paper_truthy. rewrite H.
  by destruct (title p), (abstract p), (body p).
Qed.

Lemma step_total a e : total (step a e) = total a + ref_count e.
Proof.
  destruct e as [p|]; [|simpl; lia].
  unfold step, ref_count.
  destruct (references p) as [refs|] eqn:Hr.
  - by rewrite (paper_truthy_references p refs Hr).
  - destruct (paper_truthy (Some p)); simpl; lia.
Qed.

Lemma loop_snoc l e : loop (l ++ [e]) = step (loop l) e.
Proof. unfold loop. by rewrite foldl_app. Qed.

Lemma foldl_step_total l a :
  total (foldl step a l) = total a + sum_list_with ref_count l.
Proof.
  revert a. induction l as [|e l IH]; intros a; simpl; [lia|].
  rewrite IH, step_total. lia.
Qed.

(** [total_references] is the sum of the lengths of the reference lists. *)
Lemma total_references_sum l :
  total_references (analyze_references l) = sum_list_with ref_count l.
Proof. unfold analyze_references, loop. simpl. by rewrite foldl_step_total. Qed.

(** The total and the average do not depend on the order of the papers. *)
Lemma total_references_Permutation l1 l2 :
  l1 ≡ₚ l2 ->
  total_references (analyze_references l1) = total_references (analyze_references l2).
Proof.
  intros H. rewrite !total_references_sum. by rewrite H.
Qed.

Lemma avg_references_Permutation l1 l2 :
  l1 ≡ₚ l2 ->
  avg_references_per_paper (analyze_references l1)
  = avg_references_per_paper (analyze_references l2).
Proof.
  intros H. pose proof (total_references_Permutation l1 l2 H) as Ht.
  simpl in *. rewrite Ht. by rewrite (Permutation_length H).
Qed.

(** While the common set is not empty a further paper only shrinks it. *)
Lemma step_common_shrinks a p refs :
  references p = Some refs -> common a ≠ ∅ ->
  common (step a (Some p)) = common a ∩ list_to_set refs.
Proof.
  intros Hr Hne. unfold step.
  rewrite (paper_truthy_references p refs Hr), Hr. simpl.
  case_decide as Hs; [|done].
  apply size_empty_inv in Hs. by apply leibniz_equiv in Hs.
Qed.

(** Once the common set is empty the next paper seeds it again. *)
Lemma step_common_reseeds a p refs :
  references p = Some refs -> common a = ∅ ->
  common (step a (Some p)) = list_to_set refs.
Proof.
  intros Hr He. unfold step.
  rewrite (paper_truthy_references p refs Hr), Hr. simpl. rewrite He.
  rewrite size_empty. simpl. apply (left_id_L ∅ (∪)).
Qed.

(** C1: a paper with an empty reference list, followed by a paper that cites
    X, does not leave the common set empty: the second paper seeds the set
    again and the result is {X}. *)
Theorem empty_list_then_reseeded :
  references paper_none = Some [] /\
  total_references (analyze_references [Some paper_none; Some paper_x]) = 1 /\
  common_references (analyze_references [Some paper_none; Some paper_x]) = {["X"]}.
Proof.
  split; [reflexivity|]. split; [reflexivity|]. vm_compute. reflexivity.
Qed.

(** C2: appending the paper citing X to the corpus of the one paper without
    references makes the common set grow from the empty set to {X}. *)
Theorem common_grows_on_append :
  common_references (analyze_references [Some paper_none]) = ∅ /\
  common_references (analyze_references ([Some paper_none] ++ [Some paper_x])) = {["X"]} /\
  ~ (common_references (analyze_references ([Some paper_none] ++ [Some paper_x]))
     ⊆ common_references (analyze_references [Some paper_none])).
Proof.
  assert (H0 : common_references (analyze_references [Some paper_none]) = ∅)
    by (vm_compute; reflexivity).
  assert (H1 : common_references
                 (analyze_references ([Some paper_none] ++ [Some paper_x])) = {["X"]})
    by (vm_compute; reflexivity).
  rewrite H0, H1. split; [reflexivity|]. split; [reflexivity|].
  intros Hs. apply (not_elem_of_empty (C:=gset string) "X").
  apply Hs. by apply elem_of_singleton.
Qed.

(** C3: for three papers citing X, Y and Z the common set is {Z}, which is
    not a subset of the first paper's reference set {X}. *)
Theorem common_not_subset_of_each :
  common_references
    (analyze_references [Some paper_x; Some paper_y; Some paper_z]) = {["Z"]} /\
  references paper_x = Some ["X"] /\
  ~ (common_references
       (analyze_references [Some paper_x; Some paper_y; Some paper_z])
     ⊆ list_to_set ["X"]).
Proof.
  assert (H : common_references
     (analyze_references [Some paper_x; Some paper_y; Some paper_z]) = {["Z"]})
    by (vm_compute; reflexivity).
  rewrite H. split; [reflexivity|]. split; [reflexivity|]. intros Hs.
  assert (Hz : "Z" ∈ ({["Z"]} : gset string)) by (by apply elem_of_singleton).
  apply Hs in Hz. apply elem_of_list_to_set, list_elem_of_singleton in Hz.
  discriminate Hz.
Qed.

(** C4: the two orderings of the papers N (no references) and A (cites X)
    have the same total and the same average but different common sets. *)
Theorem common_depends_on_order :
  [Some paper_none; Some paper_x] ≡ₚ [Some paper_x; Some paper_none] /\
  total_references (analyze_references [Some paper_none; Some paper_x])
  = total_references (analyze_references [Some paper_x; Some paper_none]) /\
  avg_references_per_paper (analyze_references [Some paper_none; Some paper_x])
  = avg_references_per_paper (analyze_references [Some paper_x; Some paper_none]) /\
  common_references (analyze_references [Some paper_none; Some paper_x]) = {["X"]} /\
  common_references (analyze_references [Some paper_x; Some paper_none]) = ∅.
Proof.
  split; [apply perm_swap|].
  split; [reflexivity|]. split; [reflexivity|].
  split; vm_compute; reflexivity.
Qed.

End ReferenceFacts.
(** ** Text aggregation and theme extraction *)

Module ThemeFacts.
Import Themes.

(** With any of the keys title, abstract and body absent, and the others
    holding strings, the aggregated text is the three fields joined by
    single spaces, an absent key counting as the empty string. *)
Lemma aggregate_missing_fields (t a b : option string) refs :
  aggregate (mkPaper (PyStr <$> t) (PyStr <$> a) (PyStr <$> b) refs)
  = default "" t ++ " " ++ default "" a ++ " " ++ default "" b.
Proof. destruct t, a, b; reflexivity. Qed.

(** Every true entry contributes its aggregated text, in order. *)
Lemma texts_cons_truthy p rest :
  paper_truthy (Some p) = true ->
  texts (Some p :: rest) = aggregate p :: texts rest.
Proof. intros H. unfold texts. cbn -[paper_truthy]. by rewrite H. Qed.

(** A key that is present with the value [None] is not a missing key: the
    f-string renders it. *)
Remark aggregate_none_value a b refs :
  aggregate (mkPaper (Some PyNone) (Some (PyStr a)) (Some (PyStr b)) refs)
  = "None " ++ a ++ " " ++ b.
Proof. reflexivity. Qed.

Lemma last9_reversed_length {A} (l : list A) :
  length (last9_reversed l) = 9 `min` length l.
Proof. unfold last9_reversed. by rewrite length_take, length_reverse. Qed.

Section Ranking.
Context {W Rng : Type} (Wle : relation W) `{!Transitive Wle}.
Variable fit_transform :
  TfidfParams -> list string -> option (list string * list (list W)).
Variable nmf_fit : NMFParams -> Rng -> list (list W) -> option (list (list W)).
Variable argsort : list W -> list nat.

(** What numpy's [argsort] returns: the column indices, in ascending
    order of weight. *)
Hypothesis argsort_perm : forall row, argsort row ≡ₚ seq 0 (length row).
Hypothesis argsort_sorted : forall row, Sorted (index_le Wle row) (argsort row).

#[local] Instance index_le_trans row : Transitive (index_le Wle row).
Proof.
  intros i j k (x & y & Hi & Hj & Hxy) (y' & z & Hj' & Hk & Hyz).
  assert (y' = y) as -> by congruence.
  exists x, z. repeat split; [done..|]. by transitivity y.
Qed.

Lemma reverse_argsort_desc row :
  StronglySorted (flip (index_le Wle row)) (reverse (argsort row)).
Proof.
  apply Sorted_StronglySorted.
  - intros i j k Hij Hjk. unfold flip in *. by transitivity j.
  - apply Sorted_reverse, argsort_sorted.
Qed.

Lemma last9_desc row :
  StronglySorted (flip (index_le Wle row)) (last9_reversed (argsort row)).
Proof.
  pose proof (reverse_argsort_desc row) as H.
  rewrite <- (take_drop 9 (reverse (argsort row))) in H.
  by apply StronglySorted_app_1_l in H.
Qed.

Lemma last9_NoDup row : NoDup (last9_reversed (argsort row)).
Proof.
  assert (H : NoDup (reverse (argsort row))).
  { rewrite reverse_Permutation, argsort_perm. apply NoDup_seq. }
  rewrite <- (take_drop 9 (reverse (argsort row))) in H.
  by apply NoDup_app in H as (H & _ & _).
Qed.

(** A column that is not selected weighs no more than a selected one. *)
Lemma last9_dominates row j i :
  j < length row -> j ∉ last9_reversed (argsort row) ->
  i ∈ last9_reversed (argsort row) -> index_le Wle row j i.
Proof.
  intros Hj Hnot Hi.
  assert (Hin : j ∈ reverse (argsort row)).
  { rewrite elem_of_reverse, argsort_perm, elem_of_seq. lia. }
  pose proof (reverse_argsort_desc row) as H.
  rewrite <- (take_drop 9 (reverse (argsort row))) in H, Hin.
  apply elem_of_app in Hin as [Hin|Hin]; [done|].
  apply (StronglySorted_app_1_elem_of _ _ _ i j H); done.
Qed.

Lemma top_words_Some names row kw :
  top_words argsort names row = Some kw ->
  Forall2 (fun i w => names !! i = Some w) (last9_reversed (argsort row)) kw.
Proof. unfold top_words. apply mapM_Some_1. Qed.

Lemma extract_outcome_Extracted g papers themes :
  extract_outcome fit_transform nmf_fit argsort g papers = Extracted themes ->
  exists names tfidf components,
    fit_transform tfidf_params (texts papers) = Some (names, tfidf) /\
    nmf_fit nmf_params g tfidf = Some components /\
    mapM (make_theme argsort names) (imap pair components) = Some themes.
Proof.
  unfold extract_outcome. destruct papers as [|e papers]; [done|].
  destruct (texts (e :: papers)) as [|t txts] eqn:Ht; [done|].
  destruct (try_block _ _ _ _ _) as [th|] eqn:Hb; [|done].
  intros [= ->]. unfold try_block in Hb.
  destruct (fit_transform _ _) as [[names tfidf]|] eqn:Hf; [|done].
  simpl in Hb.
  destruct (nmf_fit _ _ _) as [components|] eqn:Hn; [|done].
  simpl in Hb. by exists names, tfidf, components.
Qed.

(** C8, amended: when theme extraction returns from the [try] block, the
  k-th theme (counting from 0) belongs to the k-th row of the theme-by-term
  matrix, is labelled with k+1, and its keywords are the names of min(9, n)
  distinct columns of the row, n being the number of columns: in descending
  order of weight, and each weighing at least as much as every column that
  was not selected. *)
Theorem themes_top_keywords g papers themes :
extract_outcome fit_transform nmf_fit argsort g papers = Extracted themes ->
extract_common_themes fit_transform nmf_fit argsort g papers = themes /\
exists names tfidf components,
  fit_transform tfidf_params (texts papers) = Some (names, tfidf) /\
  nmf_fit nmf_params g tfidf = Some components /\
  length themes = length components /\
  forall k row, components !! k = Some row ->
    exists th idxs,
      themes !! k = Some th /\
      theme th = "主题 " ++ pretty (k + 1) /\
      length (keywords th) = 9 `min` length row /\
      Forall2 (fun i kw => names !! i = Some kw) idxs (keywords th) /\
      NoDup idxs /\
      StronglySorted (flip (index_le Wle row)) idxs /\
      forall j i, j < length row -> j ∉ idxs -> i ∈ idxs -> index_le Wle row j i.
Proof.
intros Hout. split.
{ unfold extract_common_themes. by rewrite Hout. }
destruct (extract_outcome_Extracted _ _ _ Hout)
  as (names & tfidf & components & Hf & Hn & Hm).
exists names, tfidf, components. split; [done|]. split; [done|].
apply mapM_Some_1 in Hm.
pose proof (Forall2_length _ _ _ Hm) as Hlen. rewrite length_imap in Hlen.
split; [done|]. intros k row Hk.
assert (Hik : imap pair components !! k = Some (k, row)).
{ by rewrite list_lookup_imap, Hk. }
destruct (Forall2_lookup_l _ _ _ _ _ Hm Hik) as (th & Hth & Hmk).
unfold make_theme in Hmk. simpl in Hmk.
destruct (top_words argsort names row) as [kw|] eqn:Hkw; [|done].
simpl in Hmk. injection Hmk as <-.
apply top_words_Some in Hkw.
exists (mkTheme (label k) kw), (last9_reversed (argsort row)).
split; [done|]. split; [done|]. simpl. split.
{ rewrite <- (Forall2_length _ _ _ Hkw), last9_reversed_length.
  by rewrite (Permutation_length (argsort_perm row)), length_seq. }
split; [done|]. split; [apply last9_NoDup|].
split; [apply last9_desc|]. intros j i. apply last9_dominates.
Qed.

End Ranking.

Section Determinism.
Context {W Rng : Type}.
Variable fit_transform :
  TfidfParams -> list string -> option (list string * list (list W)).
Variable nmf_fit : NMFParams -> Rng -> list (list W) -> option (list (list W)).
Variable argsort : list W -> list nat.

(** With a [random_state] the factorization draws from a generator of its
    own, made from the seed, and not from numpy's global generator. *)
Hypothesis nmf_seeded : forall prm g1 g2 X,
  is_Some (random_state prm) -> nmf_fit prm g1 X = nmf_fit prm g2 X.

Lemma try_block_seeded g1 g2 txts :
  try_block fit_transform nmf_fit argsort g1 txts
  = try_block fit_transform nmf_fit argsort g2 txts.
Proof.
  unfold try_block. destruct (fit_transform _ _) as [fitted|]; [|done].
  simpl. by rewrite (nmf_seeded nmf_params g1 g2).
Qed.

(** C9: two runs of the theme extractor on the same corpus return the same
    themes, with the same keywords in the same order, whatever the states of
    the global random generator the two runs start from. *)
Theorem extract_common_themes_deterministic g1 g2 papers :
  extract_common_themes fit_transform nmf_fit argsort g1 papers
  = extract_common_themes fit_transform nmf_fit argsort g2 papers.
Proof.
  unfold extract_common_themes, extract_outcome.
  destruct papers as [|e papers]; [done|].
  destruct (texts (e :: papers)) as [|t txts]; [done|].
  by rewrite (try_block_seeded g1 g2).
Qed.

End Determinism.

(** The sample library instance meets what is assumed of [argsort]. *)

Lemma Sorted_restrict {A} (R R' : relation A) (P : A -> Prop) l :
  (forall x y, P x -> P y -> R x y -> R' x y) ->
  Forall P l -> Sorted R l -> Sorted R' l.
Proof.
  intros HR HP HS. induction HS as [|x l HS IH Hhd]; [constructor|].
  apply Forall_cons in HP as [Hx Hl]. constructor; [by apply IH|].
  destruct Hhd as [|y l' Hxy]; constructor.
  apply Forall_cons in Hl as [Hy _]. by apply HR.
Qed.

Lemma sample_argsort_perm row : Sample.argsort row ≡ₚ seq 0 (length row).
Proof. unfold Sample.argsort. apply merge_sort_Permutation. Qed.

Lemma sample_argsort_sorted row : Sorted (index_le le row) (Sample.argsort row).
Proof.
  apply (Sorted_restrict (Sample.weight_le row) _ (fun i => i < length row)).
  - intros i j Hi Hj Hij.
    destruct (lookup_lt_is_Some_2 row i Hi) as [x Hx].
    destruct (lookup_lt_is_Some_2 row j Hj) as [y Hy].
    exists x, y. repeat split; [done..|].
    unfold Sample.weight_le, Sample.weight in Hij. by rewrite Hx, Hy in Hij.
  - apply Forall_forall. intros i Hi.
    rewrite sample_argsort_perm in Hi. apply elem_of_seq in Hi. lia.
  - assert (Htot : Total (Sample.weight_le row)).
    { intros i j. unfold Sample.weight_le. lia. }
    unfold Sample.argsort. apply (Sorted_merge_sort (Sample.weight_le row)).
Qed.

Lemma sample_nmf_seeded prm (g1 g2 : nat) X :
  is_Some (random_state prm) -> Sample.nmf_fit prm g1 X = Sample.nmf_fit prm g2 X.
Proof. intros [s Hs]. unfold Sample.nmf_fit. by rewrite Hs. Qed.

Lemma alpha_corpus_outcome :
  extract_outcome Sample.fit_transform Sample.nmf_fit Sample.argsort 0
    Sample.alpha_corpus = Extracted Sample.alpha_themes.
Proof. vm_compute. reflexivity. Qed.

(** The selection on a row of twelve weights. *)
Example top_words_of_twelve :
  last9_reversed (Sample.argsort [5; 3; 9; 1; 7; 7; 2; 8; 4; 6; 0; 10])
  = [11; 2; 7; 5; 4; 9; 0; 8; 1].
Proof. vm_compute. reflexivity. Qed.

Lemma themes_top_keywords_witness :
  extract_outcome Sample.fit_transform Sample.nmf_fit Sample.argsort 0
    Sample.alpha_corpus = Extracted Sample.alpha_themes /\
  extract_common_themes Sample.fit_transform Sample.nmf_fit Sample.argsort 0
    Sample.alpha_corpus = Sample.alpha_themes /\
  exists names tfidf components,
    Sample.fit_transform tfidf_params (texts Sample.alpha_corpus)
      = Some (names, tfidf) /\
    Sample.nmf_fit nmf_params 0 tfidf = Some components /\
    length Sample.alpha_themes = length components /\
    forall k row, components !! k = Some row ->
      exists th idxs,
        Sample.alpha_themes !! k = Some th /\
        theme th = "主题 " ++ pretty (k + 1) /\
        length (keywords th) = 9 `min` length row /\
        Forall2 (fun i kw => names !! i = Some kw) idxs (keywords th) /\
        NoDup idxs /\
        StronglySorted (flip (index_le le row)) idxs /\
        forall j i, j < length row -> j ∉ idxs -> i ∈ idxs -> index_le le row j i.
Proof.
  split; [exact alpha_corpus_outcome|].
  exact (themes_top_keywords le Sample.fit_transform Sample.nmf_fit
           Sample.argsort sample_argsort_perm sample_argsort_sorted
           0 Sample.alpha_corpus Sample.alpha_themes alpha_corpus_outcome).
Defined.

(** C8 as stated fails: the vocabulary of the sample corpus has one term, and
    each of the five themes has one keyword, not nine. *)
Lemma nine_keywords_counterexample :
  ~ (forall themes th,
       extract_outcome Sample.fit_transform Sample.nmf_fit Sample.argsort 0
         Sample.alpha_corpus = Extracted themes ->
       th ∈ themes -> length (keywords th) = 9).
Proof.
  intros H.
  specialize (H Sample.alpha_themes (mkTheme (label 0) ["alpha"])
                alpha_corpus_outcome).
  assert (Hin : mkTheme (label 0) ["alpha"] ∈ Sample.alpha_themes)
    by apply list_elem_of_here.
  apply H in Hin. discriminate Hin.
Qed.

Lemma extract_common_themes_deterministic_witness :
  extract_common_themes Sample.fit_transform Sample.nmf_fit Sample.argsort 0
    Sample.alpha_corpus
  = extract_common_themes Sample.fit_transform Sample.nmf_fit Sample.argsort 7
      Sample.alpha_corpus.
Proof.
  exact (extract_common_themes_deterministic Sample.fit_transform
           Sample.nmf_fit Sample.argsort sample_nmf_seeded 0 7
           Sample.alpha_corpus).
Defined.

End ThemeFacts.

(** ** Report synthesis *)

Module ReportFacts.
Import Report.

(** Slicing by characters. *)

Lemma append_cons c s t : String c s ++ t = String c (s ++ t).
Proof. reflexivity. Qed.

Lemma take_drop_chars n s : take_chars n s ++ drop_chars n s = s.
Proof.
  revert n. induction s as [|c s IH]; intros n; [done|].
  cbn [take_chars drop_chars]. destruct (is_continuation c).
  - by rewrite append_cons, IH.
  - destruct n as [|n]; [done|]. by rewrite append_cons, IH.
Qed.

Lemma char_length_take n s :
  char_length (take_chars n s) = n `min` char_length s.
Proof.
  revert n. induction s as [|c s IH]; intros n; [simpl; lia|].
  cbn [take_chars char_length]. destruct (is_continuation c) eqn:Hc.
  - cbn [char_length]. rewrite Hc. apply IH.
  - destruct n as [|n]; [done|]. cbn [char_length]. rewrite Hc, IH. lia.
Qed.

Lemma drop_chars_on_boundary n s : on_boundary (drop_chars n s).
Proof.
  revert n. induction s as [|c s IH]; intros n; [done|].
  cbn [drop_chars]. destruct (is_continuation c) eqn:Hc; [apply IH|].
  destruct n as [|n]; [exact Hc|apply IH].
Qed.

Lemma take_chars_all n s : char_length s <= n -> take_chars n s = s.
Proof.
  revert n. induction s as [|c s IH]; intros n Hn; [done|].
  cbn [take_chars char_length] in *. destruct (is_continuation c).
  - by rewrite IH.
  - destruct n as [|n]; [lia|]. rewrite IH; [done|lia].
Qed.

Lemma char_length_app a b :
  char_length (a ++ b) = char_length a + char_length b.
Proof.
  induction a as [|c a IH]; [done|].
  rewrite append_cons. cbn [char_length]. rewrite IH.
  by destruct (is_continuation c).
Qed.

Lemma truthy_nonempty s : s <> "" -> truthy (PyStr s) = true.
Proof. by destruct s. Qed.

Lemma summary_abstract_present p s :
  abstract p = Some (PyStr s) -> s <> "" ->
  summary_abstract p = take_chars 500 s ++ "...".
Proof.
  intros Ha Hs. unfold summary_abstract. rewrite Ha. simpl dict_get.
  by rewrite (truthy_nonempty s Hs).
Qed.

(** An abstract of 200 characters of three bytes each is not cut. *)
Example short_abstract_not_cut :
  summary_abstract (SampleText.paper_of_abstract SampleText.short_abstract)
  = SampleText.short_abstract ++ "...".
Proof. vm_compute. reflexivity. Qed.

Section Synthesis.
Context {W Rng : Type}.
Variable fit_transform :
Themes.TfidfParams -> list string -> option (list string * list (list W)).
Variable nmf_fit :
Themes.NMFParams -> Rng -> list (list W) -> option (list (list W)).
Variable argsort : list W -> list nat.

(** C7: on the empty corpus the theme extractor returns no theme, the
  reference analyzer returns total 0, no common reference and average 0,
  and both reports are built, with 0 papers and no summary. *)
Theorem empty_corpus_safe g now :
Themes.extract_common_themes fit_transform nmf_fit argsort g [] = [] /\
References.analyze_references [] = References.mkStats 0 ∅ [] 0 /\
generate_review fit_transform nmf_fit argsort g now []
= mkReview _ 0 [] (References.mkStats 0 ∅ [] 0) [] now /\
analyze now [] = mkBasicReview 0 [] now.
Proof. repeat split. Qed.

Lemma summaries_elem_of papers p :
Some p ∈ papers -> paper_truthy (Some p) = true ->
paper_summary p ∈ summaries papers.
Proof.
intros Hin Ht. unfold summaries. apply list_elem_of_omap.
exists (Some p). split; [done|]. by rewrite Ht.
Qed.

(** C5: in the summaries of [generate_review] and of [analyze], the abstract
of a paper whose abstract has more than 500 characters is its first 500
characters followed by the marker [...]; a shorter abstract that is not
empty is kept whole and followed by the marker; an absent, [None] or empty
abstract gives the default string. *)
Theorem truncation_law g now papers p :
Some p ∈ papers -> paper_truthy (Some p) = true ->
paper_summary p
∈ papers_summary (generate_review fit_transform nmf_fit argsort g now papers) /\
paper_summary p ∈ b_papers_summary (analyze now papers) /\
(forall s, abstract p = Some (PyStr s) -> 500 < char_length s ->
   s_abstract (paper_summary p) = take_chars 500 s ++ "..." /\
   char_length (take_chars 500 s) = 500 /\
   s = take_chars 500 s ++ drop_chars 500 s /\
   on_boundary (drop_chars 500 s)) /\
(forall s, abstract p = Some (PyStr s) -> s <> "" -> char_length s <= 500 ->
   s_abstract (paper_summary p) = s ++ "...") /\
(abstract p = None \/ abstract p = Some PyNone \/ abstract p = Some (PyStr "") ->
   s_abstract (paper_summary p) = "No abstract available").
Proof.
intros Hin Ht.
split; [by apply summaries_elem_of|]. split; [by apply summaries_elem_of|].
split; [|split].
- intros s Ha Hs.
  assert (Hne : s <> "") by (intros ->; simpl in Hs; lia).
  split; [by apply summary_abstract_present|].
  split; [rewrite char_length_take; lia|].
  split; [by rewrite take_drop_chars|apply drop_chars_on_boundary].
- intros s Ha Hne Hs. simpl.
  rewrite (summary_abstract_present p s Ha Hne).
  by rewrite (take_chars_all 500 s Hs).
- intros [Ha|[Ha|Ha]]; simpl; unfold summary_abstract; by rewrite Ha.
Qed.

(** C10: a paper whose abstract is the empty string is summarized like one
  without abstract, by the default string, in the summaries of both
  [generate_review] and [analyze]. *)
Theorem empty_abstract_gets_default g now papers p :
Some p ∈ papers -> abstract p = Some (PyStr "") ->
s_abstract (paper_summary p) = "No abstract available" /\
summary_abstract p
= summary_abstract (mkPaper (title p) None (body p) (references p)) /\
paper_summary p
∈ papers_summary (generate_review fit_transform nmf_fit argsort g now papers) /\
paper_summary p ∈ b_papers_summary (analyze now papers).
Proof.
intros Hin Ha.
assert (Ht : paper_truthy (Some p) = true).
{ unfold paper_truthy. rewrite Ha. by destruct (title p). }
assert (Hd : summary_abstract p = "No abstract available").
{ unfold summary_abstract. by rewrite Ha. }
split; [exact Hd|]. split; [by rewrite Hd|].
split; simpl; by apply summaries_elem_of.
Qed.

End Synthesis.

Lemma truncation_law_witness :
  s_abstract (paper_summary (SampleText.paper_of_abstract SampleText.long_abstract))
  = SampleText.repeat_string "题" 500 ++ "...".
Proof.
  destruct (truncation_law Sample.fit_transform Sample.nmf_fit Sample.argsort
              0 "2024-01-01 00:00:00"
              [Some (SampleText.paper_of_abstract SampleText.long_abstract)]
              (SampleText.paper_of_abstract SampleText.long_abstract))
    as (_ & _ & H & _).
  - apply list_elem_of_here.
  - reflexivity.
  - assert (Hlen : 500 < char_length SampleText.long_abstract)
      by (vm_compute; lia).
    destruct (H SampleText.long_abstract eq_refl Hlen) as [-> _].
    vm_compute. reflexivity.
Defined.

Lemma empty_abstract_gets_default_witness :
  s_abstract (paper_summary (Sample.paper_abstract "")) = "No abstract available".
Proof.
  apply (empty_abstract_gets_default Sample.fit_transform Sample.nmf_fit
           Sample.argsort 0 "2024-01-01 00:00:00"
           [Some (Sample.paper_abstract "")] (Sample.paper_abstract "")).
  - apply list_elem_of_here.
  - reflexivity.
Defined.

End ReportFacts.

(** ** Further invariants of the reference analysis *)

Module ReferenceInvariants.
Import References ReferenceLists ReferenceFacts.

Lemma step_no_references a e : has_references e = false -> step a e = a.
Proof.
  destruct e as [p|]; [|done]. unfold has_references, step.
  destruct (references p); [done|]. by destruct (paper_truthy (Some p)).
Qed.

Lemma step_common_subseteq a p refs :
  references p = Some refs -> common (step a (Some p)) ⊆ list_to_set refs.
Proof.
  intros Hr. destruct (decide (common a = ∅)) as [He|Hne].
  - by rewrite (step_common_reseeds a p refs Hr He).
  - rewrite (step_common_shrinks a p refs Hr Hne). apply intersection_subseteq_r.
Qed.

Lemma reference_lists_snoc l e :
  reference_lists (l ++ [e])
  = (reference_lists l
     ++ match e with
        | Some p => match references p with Some refs => [refs] | None => [] end
        | None => []
        end)%list.
Proof.
  unfold reference_lists. rewrite omap_app. f_equal.
  destruct e as [p|]; [|done]. simpl. by destruct (references p).
Qed.

Lemma loop_no_lists l : reference_lists l = [] -> loop l = init.
Proof.
  induction l as [|e l IH] using rev_ind; [done|].
  rewrite reference_lists_snoc, loop_snoc. intros H.
  apply app_eq_nil in H as [Hl He]. rewrite (IH Hl).
  apply step_no_references. destruct e as [p|]; [|done]. simpl.
  by destruct (references p).
Qed.

Lemma size_list_to_set_le (refs : list string) :
  size (list_to_set refs : gset string) <= length refs.
Proof.
  induction refs as [|r refs IH].
  - by rewrite list_to_set_nil, size_empty.
  - rewrite list_to_set_cons, size_union_alt, size_singleton.
    assert (size (list_to_set refs ∖ {[r]} : gset string)
            <= size (list_to_set refs : gset string))
      by (apply subseteq_size, subseteq_difference_l; done).
    simpl. lia.
Qed.

(** X1: the total and the average do not depend on the order of the corpus. *)
Theorem totals_order_independent l1 l2 :
  l1 ≡ₚ l2 ->
  total_references (analyze_references l1)
  = total_references (analyze_references l2) /\
  avg_references_per_paper (analyze_references l1)
  = avg_references_per_paper (analyze_references l2).
Proof.
  intros H. split.
  - by apply total_references_Permutation.
  - by apply avg_references_Permutation.
Qed.

Lemma totals_order_independent_witness :
  total_references
    (analyze_references [Some Sample.paper_x; Some (Sample.paper_with "D" ["X"; "Y"])])
  = total_references
      (analyze_references [Some (Sample.paper_with "D" ["X"; "Y"]); Some Sample.paper_x]) /\
  avg_references_per_paper
    (analyze_references [Some Sample.paper_x; Some (Sample.paper_with "D" ["X"; "Y"])])
  = avg_references_per_paper
      (analyze_references [Some (Sample.paper_with "D" ["X"; "Y"]); Some Sample.paper_x]).
Proof. apply totals_order_independent. apply perm_swap. Defined.

(** X2: the common references are among the references of the last paper. *)
Theorem common_within_last_paper l p refs :
  references p = Some refs ->
  common_references (analyze_references (l ++ [Some p])) ⊆ list_to_set refs.
Proof.
  intros Hr. unfold analyze_references. simpl. rewrite loop_snoc.
  by apply step_common_subseteq.
Qed.

Lemma common_within_last_paper_witness :
  common_references
    (analyze_references ([Some Sample.paper_x] ++ [Some Sample.paper_y]))
  ⊆ list_to_set ["Y"].
Proof. by apply (common_within_last_paper [Some Sample.paper_x] Sample.paper_y). Defined.

(** X3: there are never more common references than references in total. *)
Theorem common_size_le_total l :
  size (common_references (analyze_references l))
  <= total_references (analyze_references l).
Proof.
  unfold analyze_references. simpl.
  induction l as [|e l IH] using rev_ind.
  - change (common (loop [])) with (∅ : gset string). by rewrite size_empty.
  - rewrite loop_snoc. destruct (has_references e) eqn:He.
    + destruct e as [p|]; [|done]. simpl in He.
      destruct (references p) as [refs|] eqn:Hr; [|done].
      pose proof (subseteq_size _ _ (step_common_subseteq (loop l) p refs Hr))
        as H1.
      pose proof (size_list_to_set_le refs) as H2.
      rewrite step_total. unfold ref_count. rewrite Hr. lia.
    + by rewrite (step_no_references _ _ He).
Qed.

(** X5: entries that are [None] or have no key ['references'] change neither
    the total nor the common references. *)
Theorem entries_without_references_skipped l :
  total_references
    (analyze_references (filter (fun e => has_references e = true) l))
  = total_references (analyze_references l) /\
  common_references
    (analyze_references (filter (fun e => has_references e = true) l))
  = common_references (analyze_references l).
Proof.
  assert (H : forall a,
    foldl step a (filter (fun e => has_references e = true) l) = foldl step a l).
  { induction l as [|e l IH]; intros a; [done|].
    destruct (has_references e) eqn:He.
    - rewrite filter_cons_True by done. simpl. apply IH.
    - rewrite filter_cons_False by (by rewrite He). simpl.
      rewrite (step_no_references a e He). apply IH. }
  unfold analyze_references, loop. simpl. by rewrite H.
Qed.

(** X4: when at least one reference is cited by every paper that has a
    reference list, the common references are exactly the references cited
    by every such paper. *)
Theorem common_exact_when_shared l x :
  reference_lists l <> [] ->
  Forall (fun refs => x ∈ refs) (reference_lists l) ->
  forall y, y ∈ common_references (analyze_references l)
            <-> Forall (fun refs => y ∈ refs) (reference_lists l).
Proof.
  unfold analyze_references. simpl.
  induction l as [|e l IH] using rev_ind; [done|].
  rewrite reference_lists_snoc, loop_snoc. intros Hne Hx y.
  apply Forall_app in Hx as [Hxl Hxe].
  destruct e as [p|]; [destruct (references p) as [refs|] eqn:Hr|].
  - apply Forall_singleton in Hxe. rewrite Forall_app, Forall_singleton.
    destruct (reference_lists l) as [|r rl] eqn:Hl.
    + assert (He : common (loop l) = ∅) by (by rewrite (loop_no_lists l Hl)).
      rewrite (step_common_reseeds _ p refs Hr He), elem_of_list_to_set.
      split; [by split|]. by intros [_ ?].
    + assert (Hc : common (loop l) ≠ ∅).
      { intros He. assert (Hin : x ∈ common (loop l)) by (by apply IH).
        rewrite He in Hin. by apply not_elem_of_empty in Hin. }
      rewrite (step_common_shrinks _ p refs Hr Hc).
      rewrite elem_of_intersection, elem_of_list_to_set.
      by rewrite (IH ltac:(done) Hxl y).
  - rewrite step_no_references by (simpl; by rewrite Hr).
    rewrite app_nil_r in *. by apply IH.
  - rewrite step_no_references by done.
    rewrite app_nil_r in *. by apply IH.
Qed.

Lemma common_exact_when_shared_witness :
  "X" ∈ common_references
          (analyze_references
             [Some (Sample.paper_with "A" ["X"; "Y"]); None;
              Some (Sample.paper_with "B" ["X"; "Z"]); Some Sample.paper_x])
  <-> Forall (fun refs => "X" ∈ refs) [["X"; "Y"]; ["X"; "Z"]; ["X"]].
Proof.
  apply (common_exact_when_shared
           [Some (Sample.paper_with "A" ["X"; "Y"]); None;
            Some (Sample.paper_with "B" ["X"; "Z"]); Some Sample.paper_x] "X").
  - discriminate.
  - repeat constructor.
Defined.

End ReferenceInvariants.

(** ** Bounds on the report *)

Module ReportBounds.
Import Report ReportFacts.

Lemma summary_abstract_chars p :
  summary_abstract p <> "" /\ char_length (summary_abstract p) <= 503.
Proof.
  assert (Hd : "No abstract available" <> ""
               /\ char_length "No abstract available" <= 503).
  { split; [done|]. change (char_length "No abstract available") with 21. lia. }
  unfold summary_abstract.
  destruct (abstract p) as [[|s]|]; simpl dict_get; cbn [truthy];
    [exact Hd| |exact Hd].
  destruct (negb (String.eqb s "")); [|exact Hd]. split.
  - intros H. apply (f_equal String.length) in H.
    destruct (take_chars 500 s); discriminate H.
  - rewrite char_length_app, char_length_take.
    change (char_length "...") with 3. lia.
Qed.

Lemma summaries_inv l sm :
  sm ∈ summaries l -> exists p, sm = paper_summary p.
Proof.
  unfold summaries. intros H.
  apply list_elem_of_omap in H as (e & _ & He).
  destruct (paper_truthy e); [|done]. destruct e as [p|]; [|done].
  exists p. by injection He as <-.
Qed.

Lemma summaries_length l :
  length (summaries l) <= length l /\
  (length (summaries l) = length l <-> Forall (fun e => paper_truthy e = true) l).
Proof.
  induction l as [|e l [IHle IHeq]].
  - split; [done|]. split; [constructor|done].
  - unfold summaries in *. cbn -[paper_truthy].
    destruct (paper_truthy e) eqn:He.
    + destruct e as [p|]; [|done]. simpl. split; [lia|].
      rewrite Forall_cons. split.
      * intros H. split; [done|]. apply IHeq. lia.
      * intros [_ H]. f_equal. by apply IHeq.
    + destruct e; simpl; (split; [lia|]); rewrite Forall_cons;
        (split; [lia|]); intros [Hc _]; congruence.
Qed.

Section Counting.
Context {W Rng : Type}.
Variable fit_transform :
  Themes.TfidfParams -> list string -> option (list string * list (list W)).
Variable nmf_fit :
  Themes.NMFParams -> Rng -> list (list W) -> option (list (list W)).
Variable argsort : list W -> list nat.

(** X7: the review never has more summaries than [total_papers], and has as
    many exactly when every entry of the corpus is true: an entry that is
    [None] or an empty dictionary is counted but not summarized. *)
Theorem summaries_at_most_total_papers g now l :
  length (papers_summary (generate_review fit_transform nmf_fit argsort g now l))
  <= total_papers (generate_review fit_transform nmf_fit argsort g now l) /\
  (length (papers_summary (generate_review fit_transform nmf_fit argsort g now l))
   = total_papers (generate_review fit_transform nmf_fit argsort g now l)
   <-> Forall (fun e => paper_truthy e = true) l).
Proof. simpl. apply summaries_length. Qed.

(** X6: the abstract of every summary of [generate_review] and of [analyze]
is not empty and has at most 503 characters. *)
Theorem summary_abstract_bounds g now l sm :
sm ∈ papers_summary (generate_review fit_transform nmf_fit argsort g now l)
\/ sm ∈ b_papers_summary (analyze now l) ->
s_abstract sm <> "" /\ char_length (s_abstract sm) <= 503.
Proof.
intros H.
assert (Hs : sm ∈ summaries l) by (by destruct H).
apply summaries_inv in Hs as [p ->]. apply summary_abstract_chars.
Qed.

End Counting.

Lemma summary_abstract_bounds_witness :
  s_abstract
    (paper_summary (SampleText.paper_of_abstract SampleText.long_abstract))
  <> "" /\
  char_length
    (s_abstract
       (paper_summary (SampleText.paper_of_abstract SampleText.long_abstract)))
  <= 503.
Proof.
  apply (summary_abstract_bounds Sample.fit_transform Sample.nmf_fit
           Sample.argsort 0 "2024-01-01 00:00:00"
           [Some (SampleText.paper_of_abstract SampleText.long_abstract)]).
  left. apply list_elem_of_here.
Defined.

End ReportBounds.

(** ** Edge cases of the theme extraction *)

Module ThemeEdges.
Import Themes ThemeFacts.

Lemma texts_no_true_entry l :
  Forall (fun e => paper_truthy e = false) l -> texts l = [].
Proof.
  induction 1 as [|e l He _ IH]; [done|].
  unfold texts in *. cbn -[paper_truthy]. by rewrite He.
Qed.

Lemma keywords_NoDup (names : list string) idxs kws :
  NoDup names -> NoDup idxs ->
  Forall2 (fun i kw => names !! i = Some kw) idxs kws -> NoDup kws.
Proof.
  intros Hn Hi HF. induction HF as [|i kw idxs kws Hik HF IH]; [constructor|].
  apply NoDup_cons in Hi as [Hi Hd]. apply NoDup_cons. split; [|by apply IH].
  intros Hin. apply list_elem_of_lookup in Hin as [n Hn'].
  destruct (Forall2_lookup_r _ _ _ _ _ HF Hn') as (j & Hj & Hjk).
  assert (j = i) as -> by (by apply (NoDup_lookup names j i kw)).
  apply Hi. apply list_elem_of_lookup. by exists n.
Qed.

Section Edges.
Context {W Rng : Type}.
Variable fit_transform :
  TfidfParams -> list string -> option (list string * list (list W)).
Variable nmf_fit : NMFParams -> Rng -> list (list W) -> option (list (list W)).
Variable argsort : list W -> list nat.

(** X8: when no entry of the corpus is true, no text is aggregated and no theme
    is returned, whatever the vectorizer and the factorization would do. *)
Theorem no_true_entry_no_themes g l :
  Forall (fun e => paper_truthy e = false) l ->
  texts l = [] /\
  extract_common_themes fit_transform nmf_fit argsort g l = [].
Proof.
  intros H. pose proof (texts_no_true_entry l H) as Ht. split; [done|].
  unfold extract_common_themes, extract_outcome. rewrite Ht.
  by destruct l.
Qed.

Hypothesis argsort_perm : forall row, argsort row ≡ₚ seq 0 (length row).

(** X9: the keywords of a theme are terms of the vocabulary, and no term occurs
    twice among them when the vocabulary lists each term once. *)
Theorem keywords_distinct_terms g l themes names tfidf th :
  extract_outcome fit_transform nmf_fit argsort g l = Extracted themes ->
  fit_transform tfidf_params (texts l) = Some (names, tfidf) ->
  NoDup names ->
  th ∈ themes ->
  NoDup (keywords th) /\ keywords th ⊆ names.
Proof.
  intros Hout Hf Hnd Hth.
  destruct (extract_outcome_Extracted _ _ _ _ _ _ Hout)
    as (names' & tfidf' & components & Hf' & Hn & Hm).
  rewrite Hf in Hf'. injection Hf' as <- <-.
  apply mapM_Some_1 in Hm.
  apply list_elem_of_lookup in Hth as [k Hk].
  destruct (Forall2_lookup_r _ _ _ _ _ Hm Hk) as ([k' row] & _ & Hmk).
  unfold make_theme in Hmk. simpl in Hmk.
  destruct (top_words argsort names row) as [kw|] eqn:Hkw; [|done].
  simpl in Hmk. injection Hmk as <-. simpl.
  apply top_words_Some in Hkw. split.
  - apply (keywords_NoDup names (last9_reversed (argsort row))); [done| |done].
    by apply last9_NoDup.
  - intros w Hw. apply list_elem_of_lookup in Hw as [n Hn'].
    destruct (Forall2_lookup_r _ _ _ _ _ Hkw Hn') as (i & _ & Hi).
    apply list_elem_of_lookup. by exists i.
Qed.

(** X10: when the vectorizer and the factorization return, on a corpus with at
    least one true entry, and no row of the theme-by-term matrix has more
    columns than the vocabulary has terms, the extraction returns one theme
    for each row. *)
Theorem extraction_succeeds g l names tfidf components :
  texts l <> [] ->
  fit_transform tfidf_params (texts l) = Some (names, tfidf) ->
  nmf_fit nmf_params g tfidf = Some components ->
  Forall (fun row => length row <= length names) components ->
  exists themes,
    extract_outcome fit_transform nmf_fit argsort g l = Extracted themes /\
    extract_common_themes fit_transform nmf_fit argsort g l = themes /\
    length themes = length components.
Proof.
  intros Ht Hf Hn Hrows.
  assert (Hall : Forall (is_Some ∘ make_theme argsort names)
                        (imap pair components)).
  { apply Forall_forall. intros [k row] Hin.
    apply list_elem_of_lookup in Hin as [n Hn'].
    rewrite list_lookup_imap in Hn'.
    destruct (components !! n) as [row'|] eqn:Hrow; [|done].
    simpl in Hn'. injection Hn' as <- <-.
    assert (Hlen : length row' <= length names).
    { eapply Forall_forall in Hrows; [done|].
      apply list_elem_of_lookup. by exists n. }
    unfold compose, make_theme. simpl.
    assert (Hw : is_Some (top_words argsort names row')).
    { unfold top_words. apply mapM_is_Some_2, Forall_forall.
      intros i Hi. unfold compose. apply lookup_lt_is_Some_2.
      unfold last9_reversed in Hi.
      apply elem_of_take in Hi as (n' & Hi & _).
      assert (Hin : i ∈ reverse (argsort row')).
      { apply list_elem_of_lookup. by exists n'. }
      rewrite elem_of_reverse, argsort_perm, elem_of_seq in Hin. lia. }
    destruct Hw as [kw ->]. by eexists. }
  apply mapM_is_Some_2 in Hall as [themes Hthemes].
  exists themes.
  assert (Hout : extract_outcome fit_transform nmf_fit argsort g l
                 = Extracted themes).
  { unfold extract_outcome. destruct l as [|e l]; [done|].
    destruct (texts (e :: l)) as [|t txts] eqn:Htx; [done|].
    unfold try_block. rewrite Hf. simpl. rewrite Hn. simpl.
    by rewrite Hthemes. }
  split; [done|]. split.
  - unfold extract_common_themes. by rewrite Hout.
  - apply mapM_Some_1, Forall2_length in Hthemes.
    by rewrite length_imap in Hthemes.
Qed.

End Edges.

Lemma no_true_entry_no_themes_witness :
  texts [None; Some (mkPaper None None None None)] = [] /\
  extract_common_themes Sample.fit_transform Sample.nmf_fit Sample.argsort 0
    [None; Some (mkPaper None None None None)] = [].
Proof.
  apply no_true_entry_no_themes. repeat constructor.
Defined.

Lemma keywords_distinct_terms_witness :
  NoDup (keywords (mkTheme (label 0) ["alpha"])) /\
  keywords (mkTheme (label 0) ["alpha"]) ⊆ ["alpha"].
Proof.
  apply (keywords_distinct_terms Sample.fit_transform Sample.nmf_fit
           Sample.argsort sample_argsort_perm 0 Sample.alpha_corpus
           Sample.alpha_themes ["alpha"]
           ((fun _ => [1]) <$> texts Sample.alpha_corpus)).
  - exact alpha_corpus_outcome.
  - reflexivity.
  - apply NoDup_singleton.
  - apply list_elem_of_here.
Defined.

Lemma extraction_succeeds_witness :
  exists themes,
    extract_outcome Sample.fit_transform Sample.nmf_fit Sample.argsort 0
      Sample.alpha_corpus = Extracted themes /\
    extract_common_themes Sample.fit_transform Sample.nmf_fit Sample.argsort 0
      Sample.alpha_corpus = themes /\
    length themes = length (replicate 5 [42]).
Proof.
  apply (extraction_succeeds Sample.fit_transform Sample.nmf_fit
           Sample.argsort sample_argsort_perm 0 Sample.alpha_corpus
           ["alpha"] ((fun _ => [1]) <$> texts Sample.alpha_corpus)).
  - discriminate.
  - reflexivity.
  - reflexivity.
  - repeat constructor.
Defined.

End ThemeEdges.

(** ** Ingestion *)

Module GrobidFacts.
Import Grobid PaperShape.

Lemma complete_truthy p : complete p -> paper_truthy (Some p) = true.
Proof.
  intros ([t Ht] & _). unfold paper_truthy. by rewrite Ht.
Qed.

Lemma complete_entry_truthy e : complete_entry e -> paper_truthy e = true.
Proof. intros (p & -> & Hp). by apply complete_truthy. Qed.

Section Client.
Context {Elem World : Type}.
Variable fromstring : string -> option Elem.
Variable find : string -> Elem -> option Elem.
Variable findall : string -> Elem -> list Elem.
Variable text : Elem -> option string.
Variable itertext : Elem -> list string.
Variable strip_namespace : string -> string.
Variable get : World -> string -> World * option nat.
Variable post : World -> string -> string -> World * option (nat * string).

Abbreviation extract_text_from_xml :=
  (extract_text_from_xml fromstring find findall text itertext strip_namespace).
Abbreviation process_pdf :=
  (process_pdf fromstring find findall text itertext strip_namespace post).
Abbreviation process_step :=
  (process_step fromstring find findall text itertext strip_namespace post).
Abbreviation process_papers :=
  (process_papers fromstring find findall text itertext strip_namespace get post).

Lemma reference_titles_nonempty refs :
  Forall (fun r => r <> "") (reference_titles find text refs).
Proof.
  apply Forall_forall. intros r Hr. unfold reference_titles in Hr.
  apply list_elem_of_omap in Hr as (ref & _ & Href).
  destruct (find ".//title" ref) as [t|]; [|done].
  destruct (text t) as [s|]; [|done].
  destruct (String.eqb_spec s ""); [done|]. by injection Href as <-.
Qed.

(** X11: whenever the XML text parses, [extract_text_from_xml] returns a paper
    with all four keys, string abstract and body, and no empty reference
    title: a true dictionary even for a document in which nothing was
    found. *)
Theorem extracted_paper_complete xml_string p :
  extract_text_from_xml xml_string = Some p ->
  complete p /\ paper_truthy (Some p) = true.
Proof.
  unfold Grobid.extract_text_from_xml.
  destruct (fromstring _) as [root|]; [|done]. intros [= <-].
  assert (Hc : complete
    (mkPaper
       (Some (title_text text (find ".//titleStmt/title" root)))
       (Some (PyStr (joined_text itertext (find ".//abstract" root))))
       (Some (PyStr (joined_text itertext (find ".//body" root))))
       (Some (reference_titles find text
                (findall ".//listBibl/biblStruct" root))))).
  { split; [by eexists|]. split; [by eexists|]. split; [by eexists|].
    eexists. split; [done|]. apply reference_titles_nonempty. }
  split; [done|]. by apply complete_truthy.
Qed.

(** A title element without text gives a paper whose title is [None]. *)
Lemma extract_title_without_text xml_string root t :
  fromstring (strip_namespace xml_string) = Some root ->
  find ".//titleStmt/title" root = Some t ->
  text t = None ->
  exists p, extract_text_from_xml xml_string = Some p /\ title p = Some PyNone.
Proof.
  intros Hroot Ht Htext. unfold Grobid.extract_text_from_xml.
  rewrite Hroot, Ht. eexists. split; [done|].
  unfold title_text. simpl. by rewrite Htext.
Qed.

Lemma process_pdf_complete w base_url pdf_path p :
  (process_pdf w base_url pdf_path).2 = Some p -> complete p.
Proof.
  unfold Grobid.process_pdf. destruct (post _ _ _) as [w' response].
  cbn [snd]. destruct response as [[status txt]|]; [|done].
  destruct (Nat.eqb status 200); [|done].
  destruct (extract_text_from_xml txt) as [q|] eqn:Hq; [|done].
  destruct (paper_truthy (Some q)); [|done]. intros [= <-].
  exact (proj1 (extracted_paper_complete txt q Hq)).
Qed.

Lemma process_step_appends base_url st pdf_file :
  exists added,
    (process_step base_url st pdf_file).2 = (st.2 ++ added)%list /\
    length added <= 1 /\ Forall complete_entry added.
Proof.
  unfold Grobid.process_step.
  destruct (process_pdf st.1 base_url pdf_file) as [w' paper_data] eqn:Hp.
  simpl. destruct (paper_truthy paper_data) eqn:Ht.
  - exists [paper_data]. split; [done|]. split; [done|].
    constructor; [|constructor]. destruct paper_data as [p|]; [|done].
    exists p. split; [done|].
    apply (process_pdf_complete st.1 base_url pdf_file). by rewrite Hp.
  - exists []. split; [by rewrite app_nil_r|]. split; [simpl; lia|constructor].
Qed.

Lemma foldl_process_step_appends base_url pdf_files st :
  exists added,
    (foldl (process_step base_url) st pdf_files).2 = (st.2 ++ added)%list /\
    length added <= length pdf_files /\ Forall complete_entry added.
Proof.
  revert st. induction pdf_files as [|f fs IH]; intros st; simpl.
  - exists []. split; [by rewrite app_nil_r|]. split; [done|constructor].
  - destruct (process_step_appends base_url st f) as (a1 & H1 & L1 & F1).
    destruct (IH (process_step base_url st f)) as (a2 & H2 & L2 & F2).
    exists (a1 ++ a2)%list. rewrite H2, H1, <- app_assoc. split; [done|].
    rewrite length_app. split; [lia|]. by apply Forall_app.
Qed.

(** X12: [process_papers] only appends to the corpus, at most one paper for each
    file, and each paper it appends is complete. *)
Theorem process_papers_appends w base_url papers_data pdf_files :
  exists added,
    (process_papers w base_url papers_data pdf_files).2
    = (papers_data ++ added)%list /\
    length added <= length pdf_files /\
    Forall complete_entry added.
Proof.
  unfold Grobid.process_papers.
  destruct (check_server get w base_url) as [w' alive].
  destruct alive.
  - apply (foldl_process_step_appends base_url pdf_files (w', papers_data)).
  - exists []. simpl. split; [by rewrite app_nil_r|]. split; [lia|constructor].
Qed.

End Client.

Lemma extracted_paper_complete_witness :
  complete (mkPaper (Some PyNone) (Some (PyStr "An abstract"))
              (Some (PyStr "A body")) (Some ["Ref one"])) /\
  paper_truthy (Some (mkPaper (Some PyNone) (Some (PyStr "An abstract"))
                        (Some (PyStr "A body")) (Some ["Ref one"]))) = true.
Proof.
  apply (extracted_paper_complete SampleService.fromstring SampleService.find
           SampleService.findall SampleService.text SampleService.itertext
           SampleService.strip_namespace "<TEI/>").
  reflexivity.
Defined.

(** The sample service on four files, of which one gets the status 500 and
    one cannot be sent. *)
Example process_papers_sample :
  process_papers SampleService.fromstring SampleService.find
    SampleService.findall SampleService.text SampleService.itertext
    SampleService.strip_namespace SampleService.get SampleService.post
    0 "http://localhost:8070" [] SampleService.pdf_files
  = (5, [Some (mkPaper (Some PyNone) (Some (PyStr "An abstract"))
                 (Some (PyStr "A body")) (Some ["Ref one"]));
         Some (mkPaper (Some PyNone) (Some (PyStr "An abstract"))
                 (Some (PyStr "A body")) (Some ["Ref one"]))]).
Proof. reflexivity. Qed.

End GrobidFacts.

(** ** The pipeline on an ingested corpus *)

Module PipelineFacts.
Import PaperShape ReferenceLists.

Lemma texts_length_complete l :
  Forall complete_entry l -> length (Themes.texts l) = length l.
Proof.
  induction 1 as [|e l He _ IH]; [done|].
  pose proof (GrobidFacts.complete_entry_truthy e He) as Ht.
  destruct He as (p & -> & _). unfold Themes.texts in *.
  cbn -[paper_truthy]. rewrite Ht. simpl. by rewrite IH.
Qed.

Lemma reference_lists_length_complete l :
  Forall complete_entry l -> length (reference_lists l) = length l.
Proof.
  induction 1 as [|e l He _ IH]; [done|].
  destruct He as (p & -> & _ & _ & _ & refs & Hr & _).
  unfold reference_lists in *. cbn [omap list_omap]. rewrite Hr.
  cbn [length]. by rewrite IH.
Qed.

(** A title that is [None] is rendered by the f-string, whatever the other
    fields hold. *)
Lemma texts_none_title a b refs :
  Themes.texts [Some (mkPaper (Some PyNone) (Some (PyStr a)) (Some (PyStr b)) refs)]
  = ["None " ++ a ++ " " ++ b].
Proof. reflexivity. Qed.

(** C6: the paper extracted from a document whose title element has no text
    has the title [None], and its aggregated text, the one entry of
    [texts], begins with the marker None instead of the empty string. *)
Theorem none_title_rendered :
  Grobid.extract_text_from_xml SampleService.fromstring SampleService.find
    SampleService.findall SampleService.text SampleService.itertext
    SampleService.strip_namespace "<TEI/>"
  = Some SampleText.untitled_paper /\
  title SampleText.untitled_paper = Some PyNone /\
  Themes.aggregate SampleText.untitled_paper = "None An abstract A body" /\
  Themes.texts [Some SampleText.untitled_paper] = ["None An abstract A body"].
Proof. repeat split. Qed.

Section Pipeline.
Context {Elem World W Rng : Type}.
Variable fromstring : string -> option Elem.
Variable find : string -> Elem -> option Elem.
Variable findall : string -> Elem -> list Elem.
Variable text : Elem -> option string.
Variable itertext : Elem -> list string.
Variable strip_namespace : string -> string.
Variable get : World -> string -> World * option nat.
Variable post : World -> string -> string -> World * option (nat * string).
Variable fit_transform :
  Themes.TfidfParams -> list string -> option (list string * list (list W)).
Variable nmf_fit :
  Themes.NMFParams -> Rng -> list (list W) -> option (list (list W)).
Variable argsort : list W -> list nat.

(** X13: on the corpus [process_papers] builds from the empty list, every paper
    gives a text to the theme extraction, a reference list to the reference
    analysis and a summary to both reviews: the number of summaries is
    [total_papers]. *)
Theorem ingested_corpus_fully_reported w base_url pdf_files g now :
  let corpus :=
    (Grobid.process_papers fromstring find findall text itertext
       strip_namespace get post w base_url [] pdf_files).2 in
  length (Themes.texts corpus) = length corpus /\
  length (reference_lists corpus) = length corpus /\
  length (Report.papers_summary
            (Report.generate_review fit_transform nmf_fit argsort g now corpus))
  = Report.total_papers
      (Report.generate_review fit_transform nmf_fit argsort g now corpus) /\
  length (Report.b_papers_summary (Report.analyze now corpus))
  = Report.b_total_papers (Report.analyze now corpus).
Proof.
  intros corpus.
  destruct (GrobidFacts.process_papers_appends fromstring find findall text
              itertext strip_namespace get post w base_url [] pdf_files)
    as (added & Heq & _ & Hall).
  fold corpus in Heq. simpl in Heq. rewrite Heq.
  assert (Hs : length (Report.summaries added) = length added).
  { apply ReportBounds.summaries_length.
    eapply Forall_impl; [exact Hall|].
    apply GrobidFacts.complete_entry_truthy. }
  split; [by apply texts_length_complete|].
  split; [by apply reference_lists_length_complete|]. by split.
Qed.

End Pipeline.

End PipelineFacts.

(** ** Markdown lists *)

Module MarkdownFacts.
Import Markdown.

Lemma format_list_cons x xs :
  _format_list (x :: xs)
  = "- " ++ x ++ match xs with
                 | [] => ""
                 | _ :: _ => newline ++ _format_list xs
                 end.
Proof.
  unfold _format_list. destruct xs as [|y ys].
  - assert (Hnil : forall s : string, s ++ "" = s).
    { induction s as [|c s IH]; [done|].
      change (String c (s ++ "") = String c s). by f_equal. }
    by rewrite Hnil.
  - reflexivity.
Qed.

Lemma item_split x y r1 r2 :
  has_newline x = false -> has_newline y = false ->
  item_end r1 -> item_end r2 ->
  x ++ r1 = y ++ r2 -> x = y /\ r1 = r2.
Proof.
  revert y. induction x as [|c x IH]; intros [|d y] Hx Hy H1 H2 Heq;
    cbn in Hx, Hy.
  - done.
  - change (r1 = String d (y ++ r2)) in Heq. subst r1. cbn in H1. subst d.
    by rewrite Ascii.eqb_refl in Hy.
  - change (String c (x ++ r1) = r2) in Heq. subst r2. cbn in H2. subst c.
    by rewrite Ascii.eqb_refl in Hx.
  - change (String c (x ++ r1) = String d (y ++ r2)) in Heq.
    injection Heq as -> Heq.
    apply orb_false_iff in Hx as [_ Hx]. apply orb_false_iff in Hy as [_ Hy].
    destruct (IH y Hx Hy H1 H2 Heq) as [-> ->]. done.
Qed.

(** X14: two lists of items without newlines that [_format_list] renders alike
    are the same list. *)
Theorem format_list_injective xs ys :
  Forall (fun x => has_newline x = false) xs ->
  Forall (fun y => has_newline y = false) ys ->
  _format_list xs = _format_list ys -> xs = ys.
Proof.
  intros Hxs. revert ys.
  induction Hxs as [|x xs Hx Hxs IH]; intros ys Hys Heq.
  - destruct ys as [|y ys]; [done|]. by rewrite format_list_cons in Heq.
  - destruct Hys as [|y ys Hy Hys]; [by rewrite format_list_cons in Heq|].
    rewrite !format_list_cons in Heq. apply String.app_inj in Heq.
    apply item_split in Heq as [-> Hr]; [|done|done|by destruct xs|by destruct ys].
    f_equal. destruct xs as [|x' xs], ys as [|y' ys]; try done.
    apply String.app_inj in Hr. by apply IH.
Qed.

Lemma format_list_injective_witness :
  ["a"; "b"] = ["a"; "b"].
Proof.
  apply format_list_injective; [repeat constructor..|reflexivity].
Defined.

(** An item with a newline can be rendered like two items. *)
Remark format_list_newline_item :
  _format_list ["a" ++ newline ++ "- b"] = _format_list ["a"; "b"].
Proof. reflexivity. Qed.

End MarkdownFacts.
